(** * Layers of the CUDA backend of Leela Chess Zero (src/neural/cuda/layers.h)

    Shallow embedding of the parts of [layers.h] that the properties below
    are about: the shape bookkeeping of [BaseLayer] with its [size_t]
    arithmetic, and the squeeze-excitation unit
    together with the bias of the convolution that feeds it. *)

From Stdlib Require Import ZArith List Bool Lia.
Import ListNotations.
Open Scope Z_scope.

(** ** Machine integers *)

(** [size_t] on the 64-bit targets the backend is built for. *)
Definition size_t_bits : Z := 64.
Definition size_t_modulus : Z := 2 ^ size_t_bits.

(** Usual arithmetic conversion of an [int] operand to [size_t]:
    the value is taken modulo [2^64]. *)
Definition size_t_of_int (n : Z) : Z := n mod size_t_modulus.

(** [size_t * size_t] and [size_t + size_t] wrap around modulo [2^64]. *)
Definition size_mul (a b : Z) : Z := (a * b) mod size_t_modulus.
Definition size_add (a b : Z) : Z := (a + b) mod size_t_modulus.

(** ** Element types and [BaseLayer] *)

(** The two instantiations of [DataType]: [float] and [half]. *)
Inductive DataType : Type := DT_float | DT_half.

Definition sizeof (dt : DataType) : Z :=
  match dt with DT_float => 4 | DT_half => 2 end.

(** The fields of [BaseLayer] that describe the output tensor. *)
Record BaseLayer : Type := mkBaseLayer {
  C : Z;        (* Output tensor dimensions. *)
  H : Z;
  W : Z;
  nhwc_ : bool  (* tensor layout *)
}.

Definition GetC (l : BaseLayer) : Z := C l.
Definition GetH (l : BaseLayer) : Z := H l.
Definition GetW (l : BaseLayer) : Z := W l.

(** [size_t GetOutputSize(int N) const
       { return sizeof(DataType) * N * C * H * W; }]
    The product associates to the left; each [int] operand is converted
    to [size_t] and each product wraps. *)
Definition GetOutputSize (dt : DataType) (l : BaseLayer) (N : Z) : Z :=
  size_mul
    (size_mul
       (size_mul (size_mul (sizeof dt) (size_t_of_int N))
                 (size_t_of_int (C l)))
       (size_t_of_int (H l)))
    (size_t_of_int (W l)).

(** [GetOutputSize] is not virtual: every derived layer inherits it from
    its [BaseLayer] part.  The derived classes of the header. *)
Inductive LayerKind : Type :=
| KConvLayer | KSoftMaxLayer | KFCLayer | KPolicyMapLayer | KSELayer
| KFusedWinogradConvSELayer | KConv1Layer | KResidualBlock.

Record Layer : Type := mkLayer {
  kind : LayerKind;
  base : BaseLayer
}.

Definition LayerOutputSize (dt : DataType) (ly : Layer) (N : Z) : Z :=
  GetOutputSize dt (base ly) N.

(** The same layer built with the other tensor layout. *)
Definition with_layout (l : BaseLayer) (nhwc : bool) : BaseLayer :=
  mkBaseLayer (C l) (H l) (W l) nhwc.

(** The byte count the specification states, in unbounded integers. *)
Definition spec_output_size (dt : DataType) (l : BaseLayer) (N : Z) : Z :=
  N * C l * H l * W l * sizeof dt.

(** A layer of 65536 channels on a 65536 x 65536 board. *)
Definition big_layer : Layer :=
  mkLayer KFCLayer (mkBaseLayer 65536 65536 65536 false).

(** The 256-filter 8 x 8 tower layer of the usual networks. *)
Definition tower_layer : Layer :=
  mkLayer KFusedWinogradConvSELayer (mkBaseLayer 256 8 8 true).


(** ** Squeeze-excitation and the bias of the convolution before it *)

Section SqueezeExcitation.

(** The arithmetic of the element type ([float] or [half]); nothing is
    assumed about it, so the statements below hold for rounded
    arithmetic as well. *)
Variable T : Type.
Variable zero : T.
Variable add mul : T -> T -> T.
(** Average of the [H*W] values of one channel. *)
Variable avg : list T -> T.
(** The activation of the unit and the nonlinearity of the scale gate. *)
Variable relu : T -> T.
Variable sigmoid : T -> T.

(** One sample: a list of channels, each the list of its [H*W] values. *)
Definition sample : Type := list (list T).

Fixpoint zipWith {A B R : Type} (f : A -> B -> R) (xs : list A) (ys : list B)
    : list R :=
  match xs, ys with
  | x :: xs', y :: ys' => f x y :: zipWith f xs' ys'
  | _, _ => []
  end.

Definition dot (w x : list T) : T := fold_left add (zipWith mul w x) zero.

(** A fully connected layer: one row of [w] per output. *)
Definition fc (w : list (list T)) (b : list T) (x : list T) : list T :=
  zipWith (fun row bi => add (dot row x) bi) w b.

(** Per-channel bias added to every value of the channel. *)
Definition add_channel_bias (x : sample) (b : list T) : sample :=
  zipWith (fun plane bc => map (fun v => add v bc) plane) x b.

Record SELayer : Type := mkSELayer {
  w1_ : list (list T);
  b1_ : list T;
  w2_ : list (list T);
  b2_ : list T;
  bPrev_ : option (list T);
  numFc1Out_ : nat;
  addPrevLayerBias_ : bool
}.

(** [SELayer(BaseLayer* ip, int numFc1Out, bool addPrevLayerBias = false)]:
    no weights yet ([w1_ = nullptr], ...). *)
Definition SELayer_ctor (numFc1Out : nat) (addPrevLayerBias : bool) : SELayer :=
  mkSELayer [] [] [] [] None numFc1Out addPrevLayerBias.

(** Modelled from the spec: [SELayer::LoadWeights(w1, b1, w2, b2,
    prevLayerBias, scratch)] (layers.cc, not in the sources).  The previous
    layer's bias is kept ([bPrev_]) when the unit was built with
    [addPrevLayerBias]. *)
Definition SELayer_LoadWeights (l : SELayer) (w1 : list (list T)) (b1 : list T)
    (w2 : list (list T)) (b2 : list T) (prevLayerBias : list T) : SELayer :=
  mkSELayer w1 b1 w2 b2
    (if addPrevLayerBias_ l then Some prevLayerBias else None)
    (numFc1Out_ l) (addPrevLayerBias_ l).

(** Modelled from the spec (section 4.3 and the comment of the header):
    "(optional bias add +) global avg -> FC1 -> FC2 -> global scale -> add
    skip connection -> RELU"; FC2 yields the scale gates (first [C]
    outputs) and the shifts (next [C]). *)
Definition SELayer_eval_sample (l : SELayer) (x skip : sample) : sample :=
  let x' := match addPrevLayerBias_ l, bPrev_ l with
            | true, Some b => add_channel_bias x b
            | _, _ => x
            end in
  let pooled := map avg x' in
  let hidden := map relu (fc (w1_ l) (b1_ l) pooled) in
  let gates := fc (w2_ l) (b2_ l) hidden in
  let nc := length x' in
  let scale := map sigmoid (firstn nc gates) in
  let shift := skipn nc gates in
  zipWith (fun (ch : list T * (T * T)) sk =>
             let '(plane, (s, sh)) := ch in
             zipWith (fun v k => relu (add (add (mul s v) sh) k)) plane sk)
          (combine x' (combine scale shift)) skip.

(** [SELayer::Eval(N, output, input, input2, ...)]: [input2] is the skip
    connection; the batch is processed sample by sample. *)
Definition SELayer_Eval (l : SELayer) (input input2 : list sample) : list sample :=
  zipWith (SELayer_eval_sample l) input input2.

(** A convolution producing the input of the unit: [conv_apply] is the
    bias-free convolution by the layer's weights (direct or Winograd), then
    the bias and the activation if the layer has them. *)
Variable Weights : Type.
Variable conv_apply : Weights -> sample -> sample.

Record ConvStage : Type := mkConvStage {
  conv_weights : Weights;
  conv_biases : list T;
  conv_use_bias : bool;
  conv_use_relu : bool
}.

Definition ConvStage_eval_sample (cv : ConvStage) (x : sample) : sample :=
  let y := conv_apply (conv_weights cv) x in
  let y := if conv_use_bias cv then add_channel_bias y (conv_biases cv) else y in
  if conv_use_relu cv then map (map relu) y else y.

Definition ConvStage_Eval (cv : ConvStage) (input : list sample) : list sample :=
  map (ConvStage_eval_sample cv) input.

(** The convolution followed by the unit. *)
Definition conv_then_se (cv : ConvStage) (se : SELayer)
    (input input2 : list sample) : list sample :=
  SELayer_Eval se (ConvStage_Eval cv input) input2.

End SqueezeExcitation.

(** The same layer built with the other tensor layout. *)
Definition layer_with_layout (ly : Layer) (nhwc : bool) : Layer :=
  mkLayer (kind ly) (with_layout (base ly) nhwc).

(** ** A concrete element type for the examples: integers *)

Definition avgZ (xs : list Z) : Z :=
  fold_left Z.add xs 0 / Z.of_nat (length xs).
Definition reluZ (v : Z) : Z := Z.max 0 v.
Definition gateZ (v : Z) : Z := v.
(** A 1 x 1 convolution that multiplies every value by the weight. *)
Definition scale_conv (k : Z) (x : sample Z) : sample Z := map (map (Z.mul k)) x.

Definition se_netZ (cv : ConvStage Z Z) (se : SELayer Z) :=
  conv_then_se Z 0 Z.add Z.mul avgZ reluZ gateZ Z scale_conv cv se.

(** ** Lemmas on the wrap-around *)

Example tower_size_fp16 : LayerOutputSize DT_half tower_layer 1024 = 33554432.
Proof. reflexivity. Qed.


Lemma size_t_modulus_pos : 0 < size_t_modulus.
Proof. unfold size_t_modulus, size_t_bits. lia. Qed.

Lemma size_mul_conv_r (a b : Z) :
  size_mul a (size_t_of_int b) = size_mul a b.
Proof.
  unfold size_mul, size_t_of_int.
  apply Z.mul_mod_idemp_r. pose proof size_t_modulus_pos. lia.
Qed.

Lemma size_mul_size_mul_l (a b c : Z) :
  size_mul (size_mul a b) c = size_mul (a * b) c.
Proof.
  unfold size_mul.
  apply Z.mul_mod_idemp_l. pose proof size_t_modulus_pos. lia.
Qed.

Lemma GetOutputSize_mod (dt : DataType) (l : BaseLayer) (N : Z) :
  GetOutputSize dt l N = spec_output_size dt l N mod size_t_modulus.
Proof.
  unfold GetOutputSize, spec_output_size.
  rewrite !size_mul_conv_r.
  rewrite (size_mul_size_mul_l (sizeof dt) N (C l)).
  rewrite (size_mul_size_mul_l (sizeof dt * N) (C l) (H l)).
  rewrite (size_mul_size_mul_l (sizeof dt * N * C l) (H l) (W l)).
  unfold size_mul. f_equal. ring.
Qed.

Example se_netZ_run :
  se_netZ (mkConvStage Z Z 2 [1; -3] true false)
    (SELayer_LoadWeights Z (SELayer_ctor Z 1 false)
       [[1; 1]] [0] [[1]; [1]; [0]; [0]] [0; 0; 0; 0] [])
    [[[1; 2]; [3; -1]]] [[[0; 0]; [1; 1]]]
  = [[[9; 15]; [10; 0]]].
Proof. reflexivity. Qed.

(** ** [GetOutputSize] *)

(** Claim C1, as the specification states it, fails: on a layer of
    65536 channels on a 65536 x 65536 plane and a batch of 65536 [float]
    samples, the byte count [2^66] wraps around to [0] in [size_t]. *)
Lemma GetOutputSize_exact_fails :
  LayerOutputSize DT_float big_layer 65536
  <> spec_output_size DT_float (base big_layer) 65536.
Proof. vm_compute. discriminate. Qed.

(** Claim C1 (amended): for every layer and every [N], [GetOutputSize(N)]
    is [N * C * H * W * sizeof(element)] reduced modulo [2^64] (the
    [size_t] wrap-around); it is exactly that product whenever the product
    lies in [0, 2^64). *)
Theorem GetOutputSize_spec (dt : DataType) (ly : Layer) (N : Z) :
  LayerOutputSize dt ly N = spec_output_size dt (base ly) N mod size_t_modulus
  /\ (0 <= spec_output_size dt (base ly) N < size_t_modulus ->
      LayerOutputSize dt ly N = spec_output_size dt (base ly) N).
Proof.
  unfold LayerOutputSize. rewrite GetOutputSize_mod.
  split; [reflexivity |].
  intros Hb. apply Z.mod_small. exact Hb.
Qed.

Lemma GetOutputSize_spec_witness :
  LayerOutputSize DT_half tower_layer 1024
    = spec_output_size DT_half (base tower_layer) 1024 mod size_t_modulus
  /\ LayerOutputSize DT_half tower_layer 1024
    = spec_output_size DT_half (base tower_layer) 1024.
Proof.
  destruct (GetOutputSize_spec DT_half tower_layer 1024) as [H1 H2].
  split; [exact H1 |].
  apply H2. unfold spec_output_size, size_t_modulus, size_t_bits. simpl. lia.
Defined.

(** Claim C10, read with the unbounded sum on the right, fails: on
    [big_layer] each of two batches of 8192 [float] samples takes [2^63]
    bytes, while the batch of 16384 samples wraps around to [0]. *)
Lemma GetOutputSize_additive_fails :
  LayerOutputSize DT_float big_layer (8192 + 8192)
  <> LayerOutputSize DT_float big_layer 8192
     + LayerOutputSize DT_float big_layer 8192.
Proof. vm_compute. discriminate. Qed.

(** Claim C10 (amended): [GetOutputSize] depends only on [N] and on the
    shape: it is the same for either tensor layout, it is [0] for [N = 0],
    and it is additive in [size_t] arithmetic, i.e. modulo [2^64]:
    [GetOutputSize(N1 + N2) = (GetOutputSize(N1) + GetOutputSize(N2)) mod 2^64]. *)
Theorem GetOutputSize_layout_zero_additive (dt : DataType) (ly : Layer)
    (nhwc : bool) (N N1 N2 : Z) :
  LayerOutputSize dt (layer_with_layout ly nhwc) N = LayerOutputSize dt ly N
  /\ LayerOutputSize dt ly 0 = 0
  /\ LayerOutputSize dt ly (N1 + N2)
     = size_add (LayerOutputSize dt ly N1) (LayerOutputSize dt ly N2).
Proof.
  unfold LayerOutputSize.
  pose proof size_t_modulus_pos as Hm.
  split; [reflexivity |].
  rewrite !GetOutputSize_mod. unfold spec_output_size, size_add.
  split.
  - rewrite !Z.mul_0_l. apply Z.mod_0_l. lia.
  - rewrite <- Z.add_mod by lia. f_equal. ring.
Qed.

(** ** Squeeze-excitation with the bias of the previous layer *)

(** Claim C3: a convolution without bias followed by an [SELayer] built
    with [addPrevLayerBias = true] and loaded with the convolution's bias
    computes the same batch, for every input and skip tensor and every
    weight set, as the same convolution applying that bias itself followed
    by an [SELayer] built with [addPrevLayerBias = false] (whose
    [prevLayerBias] argument is then ignored).  The convolution is the one
    feeding the unit, which applies no activation of its own: the unit's
    final activation takes its place.  The element arithmetic is arbitrary. *)
Theorem SE_prev_bias_placement_invisible
    (T : Type) (zero : T) (add mul : T -> T -> T) (avg : list T -> T)
    (relu sigmoid : T -> T) (Weights : Type) (conv_apply : Weights -> sample T -> sample T)
    (wt : Weights) (bias : list T) (numFc1Out : nat)
    (w1 : list (list T)) (b1 : list T) (w2 : list (list T)) (b2 : list T)
    (unused_bias : list T) (input input2 : list (sample T)) :
  conv_then_se T zero add mul avg relu sigmoid Weights conv_apply
    (mkConvStage T Weights wt bias false false)
    (SELayer_LoadWeights T (SELayer_ctor T numFc1Out true) w1 b1 w2 b2 bias)
    input input2
  = conv_then_se T zero add mul avg relu sigmoid Weights conv_apply
    (mkConvStage T Weights wt bias true false)
    (SELayer_LoadWeights T (SELayer_ctor T numFc1Out false) w1 b1 w2 b2 unused_bias)
    input input2.
Proof.
  unfold conv_then_se, SELayer_Eval, ConvStage_Eval.
  induction input as [| x xs IH] in input2 |- *; destruct input2 as [| sk sks];
    simpl; [reflexivity .. |].
  f_equal. exact (IH sks).
Qed.

(** ** Further properties of [GetOutputSize] *)

Lemma size_t_modulus_split (dt : DataType) :
  size_t_modulus = sizeof dt * (size_t_modulus / sizeof dt).
Proof. destruct dt; reflexivity. Qed.

(** Even when the product wraps around, [GetOutputSize(N)] is a whole
    number of elements: [sizeof(DataType)] (2 or 4) divides [2^64]. *)
Theorem GetOutputSize_whole_elements (dt : DataType) (l : BaseLayer) (N : Z) :
  (sizeof dt | GetOutputSize dt l N).
Proof.
  rewrite GetOutputSize_mod. unfold spec_output_size.
  rewrite (size_t_modulus_split dt).
  replace (N * C l * H l * W l * sizeof dt)
    with (sizeof dt * (N * C l * H l * W l)) by ring.
  rewrite Z.mul_mod_distr_l by (destruct dt; vm_compute; first [reflexivity | discriminate]).
  exists ((N * C l * H l * W l) mod (size_t_modulus / sizeof dt)). ring.
Qed.

(** A buffer sized for the largest batch serves every smaller one: for
    non-negative dimensions and [0 <= N1 <= N2], if the byte count of [N2]
    samples fits in [size_t], then [GetOutputSize(N1) <= GetOutputSize(N2)]. *)
Theorem GetOutputSize_monotone (dt : DataType) (l : BaseLayer) (N1 N2 : Z)
    (Hdims : 0 <= C l /\ 0 <= H l /\ 0 <= W l)
    (HN : 0 <= N1 <= N2)
    (Hfit : spec_output_size dt l N2 < size_t_modulus) :
  GetOutputSize dt l N1 <= GetOutputSize dt l N2.
Proof.
  rewrite !GetOutputSize_mod. unfold spec_output_size in *.
  destruct Hdims as (HC & HH & HW).
  assert (Hs : 0 < sizeof dt) by (destruct dt; simpl; lia).
  set (P := C l * H l * W l * sizeof dt).
  assert (HP : 0 <= P) by (unfold P; repeat apply Z.mul_nonneg_nonneg; lia).
  replace (N1 * C l * H l * W l * sizeof dt) with (N1 * P) by (unfold P; ring).
  replace (N2 * C l * H l * W l * sizeof dt) with (N2 * P) in * by (unfold P; ring).
  assert (H1 : N1 * P <= N2 * P) by (apply Z.mul_le_mono_nonneg_r; lia).
  rewrite !Z.mod_small; nia.
Qed.

Lemma GetOutputSize_monotone_witness :
  GetOutputSize DT_float (base tower_layer) 100
  <= GetOutputSize DT_float (base tower_layer) 1024.
Proof.
  apply GetOutputSize_monotone.
  - simpl. lia.
  - lia.
  - vm_compute. reflexivity.
Defined.

(** The size of a batch is [N] times the size of one sample, in [size_t]
    arithmetic: [GetOutputSize(N) = (N * GetOutputSize(1)) mod 2^64]. *)
Theorem GetOutputSize_per_sample (dt : DataType) (l : BaseLayer) (N : Z) :
  GetOutputSize dt l N = size_mul (size_t_of_int N) (GetOutputSize dt l 1).
Proof.
  rewrite !GetOutputSize_mod. unfold size_mul, size_t_of_int, spec_output_size.
  pose proof size_t_modulus_pos.
  rewrite <- Z.mul_mod by lia. f_equal. ring.
Qed.

(** A [float] output buffer is twice the [half] one, in [size_t]
    arithmetic. *)
Theorem GetOutputSize_float_twice_half (l : BaseLayer) (N : Z) :
  GetOutputSize DT_float l N = size_mul 2 (GetOutputSize DT_half l N).
Proof.
  rewrite !GetOutputSize_mod. unfold size_mul, spec_output_size.
  pose proof size_t_modulus_pos.
  rewrite Z.mul_mod_idemp_r by lia. f_equal. unfold sizeof. ring.
Qed.

(** A negative [N] is not rejected: converted to [size_t] it yields the
    huge count [2^64 - |N| * C * H * W * sizeof(DataType)] whenever that
    product is positive and fits in [size_t]. *)
Theorem GetOutputSize_negative_batch (dt : DataType) (l : BaseLayer) (N : Z)
    (Hpos : 0 < spec_output_size dt l (- N) < size_t_modulus) :
  GetOutputSize dt l N = size_t_modulus - spec_output_size dt l (- N).
Proof.
  rewrite GetOutputSize_mod. unfold spec_output_size in *.
  replace (N * C l * H l * W l * sizeof dt)
    with ((size_t_modulus - - N * C l * H l * W l * sizeof dt)
          + (-1) * size_t_modulus) by ring.
  rewrite Z.mod_add by (pose proof size_t_modulus_pos; lia).
  apply Z.mod_small. lia.
Qed.

Lemma GetOutputSize_negative_batch_witness :
  GetOutputSize DT_float (base tower_layer) (-1) = 18446744073709486080.
Proof.
  rewrite (GetOutputSize_negative_batch DT_float (base tower_layer) (-1)).
  - reflexivity.
  - vm_compute. split; reflexivity.
Defined.

(** A layer with an empty dimension ([C], [H] or [W] zero) asks for no
    output memory, whatever the batch. *)
Theorem GetOutputSize_empty_dim (dt : DataType) (l : BaseLayer) (N : Z)
    (Hzero : C l = 0 \/ H l = 0 \/ W l = 0) :
  GetOutputSize dt l N = 0.
Proof.
  rewrite GetOutputSize_mod. unfold spec_output_size.
  destruct Hzero as [E | [E | E]]; rewrite E;
    rewrite ?Z.mul_0_r, ?Z.mul_0_l; reflexivity.
Qed.

Lemma GetOutputSize_empty_dim_witness :
  GetOutputSize DT_half (mkBaseLayer 0 8 8 false) 256 = 0.
Proof.
  apply GetOutputSize_empty_dim. left. reflexivity.
Defined.
